(** * voltage: the client facade ([voltage/client.py]) and its cache

    A shallow embedding of [Client] (registration, dispatch, user
    resolution, session start) together with the bounded message cache the
    client constructs.  Python coroutines are run in a small monad that
    threads the client object, records every call that leaves the client
    (handler invocations and cache look-ups) and distinguishes a coroutine
    that returns, one that raises and one that never completes. *)

From Stdlib Require Import ZArith String Ascii Lia.
From stdpp Require Import gmap list.

#[local] Set Warnings "-register-all".

Local Open Scope Z_scope.

(** ** Python strings *)

(** A [str] is a sequence of Unicode code points. *)
Abbreviation str := (list N).

Definition py (s : string) : str := map N_of_ascii (list_ascii_of_string s).

Definition is_ascii (c : N) : bool := (c <? 128)%N.

Definition is_ascii_upper (c : N) : bool := (65 <=? c)%N && (c <=? 90)%N.

Definition ascii_lower (c : N) : N :=
  if is_ascii_upper c then (c + 32)%N else c.

(** ** Exceptions and values *)

Inductive exn : Type :=
  | KeyError
  | AttributeError
  | ValueError
  | TypeError
  | TransportError
  | OtherError (tag : nat).

#[global] Instance exn_eq_dec : EqDecision exn.
Proof. solve_decision. Defined.

(** How an awaited coroutine ends: it returns, it raises, or it never
    completes. *)
Inductive outcome (A : Type) : Type :=
  | Returned (a : A)
  | Raised (e : exn)
  | Pending.
Arguments Returned {A} a.
Arguments Raised {A} e.
Arguments Pending {A}.

(** Decoded JSON, the values that travel in gateway payloads and in the
    arguments handed to handlers.  Payload dictionaries have string keys
    and keep their insertion order. *)
Inductive value : Type :=
  | VNone
  | VBool (b : bool)
  | VInt (z : Z)
  | VStr (s : str)
  | VList (l : list value)
  | VDict (d : list (str * value)).

Abbreviation dict := (list (str * value)).

Fixpoint dict_get (d : dict) (k : str) : option value :=
  match d with
  | [] => None
  | (k', v) :: d' => if decide (k' = k) then Some v else dict_get d' k
  end.

(** ** Wire shapes of [voltage/types/message.py] *)

Record MasqueradePayload : Type := {
  masq_name : str;
  masq_avatar : str;
  masq_colour : str
}.

Record MessagePayload : Type := {
  _id : str;
  channel : str;
  author : str;
  content : option str;
  edited : option str;
  mentions : option (list str);
  replies : option (list str);
  masquerade : option MasqueradePayload
}.

Record User : Type := {
  user_id : str;
  user_name : str
}.

(** ** The cache *)

(** Modelled from the spec: [CacheHandler] lives in [voltage.internals],
    which is not part of the source at hand.  Per the design document the
    store keeps users without bound and messages up to a capacity fixed at
    construction; [put] inserts or replaces an entity under its identifier
    and, for messages, evicts the oldest entry when the capacity is
    exceeded after the insertion; look-ups answer with the entity or
    "not found".  Entries are kept in insertion order. *)
Module CacheHandler.

Record t : Type := {
  message_limit : Z;
  users : list User;
  messages : list MessagePayload
}.

Definition init (limit : Z) : t :=
  {| message_limit := limit; users := []; messages := [] |}.

(** Insert, or replace where the identifier is already present (the
    entry keeps its place in the insertion order). *)
Fixpoint put {A : Type} (key : A -> str) (x : A) (l : list A) : list A :=
  match l with
  | [] => [x]
  | y :: l' => if decide (key y = key x) then x :: l' else y :: put key x l'
  end.

Definition evict (limit : Z) (l : list MessagePayload) : list MessagePayload :=
  if limit <? Z.of_nat (length l) then tail l else l.

Definition add_user (c : t) (u : User) : t * User :=
  ({| message_limit := message_limit c;
      users := put user_id u (users c);
      messages := messages c |}, u).

Definition add_message (c : t) (m : MessagePayload) : t :=
  {| message_limit := message_limit c;
     users := users c;
     messages := evict (message_limit c) (put _id m (messages c)) |}.

Definition get {A : Type} (key : A -> str) (l : list A) (k : str) : option A :=
  List.find (fun x => bool_decide (key x = k)) l.

Definition get_message (c : t) (k : str) : option MessagePayload :=
  get _id (messages c) k.

Inductive attr : Type := Id | Name.

(** [get_user(key, attr="id")]: "not found" surfaces as [ValueError],
    the exception [Client.get_user] guards the name look-up against. *)
Definition get_user (c : t) (k : str) (a : attr) : User + exn :=
  let field := match a with Id => user_id | Name => user_name end in
  match get field (users c) k with
  | Some u => inl u
  | None => inr ValueError
  end.

(** A trace of cache operations: writes and reads of messages. *)
Inductive op : Type :=
  | Put (m : MessagePayload)
  | Get (k : str).

Definition step (c : t) (o : op) : t * option MessagePayload :=
  match o with
  | Put m => (add_message c m, None)
  | Get k => (c, get_message c k)
  end.

Definition run (c : t) (ops : list op) : t :=
  fold_left (fun c o => fst (step c o)) ops c.

Definition puts (ops : list op) : list MessagePayload :=
  omap (fun o => match o with Put m => Some m | Get _ => None end) ops.

End CacheHandler.

(** ** The identifier pattern *)

(** [re.search] for a pattern of the form [[class]{n}]: the leftmost
    position at which [n] consecutive characters of the class start, and
    the text matched there ([match.group(0)]). *)
Module Re.

Definition in_ranges (ranges : list (N * N)) (c : N) : bool :=
  existsb (fun r => (fst r <=? c)%N && (c <=? snd r)%N) ranges.

Fixpoint match_here (cls : N -> bool) (n : nat) (s : str) : option str :=
  match n with
  | O => Some []
  | S n' =>
      match s with
      | [] => None
      | c :: s' =>
          if cls c then option_map (cons c) (match_here cls n' s') else None
      end
  end.

Fixpoint search (cls : N -> bool) (n : nat) (s : str) : option str :=
  match match_here cls n s with
  | Some m => Some m
  | None =>
      match s with
      | [] => None
      | _ :: s' => search cls n s'
      end
  end.

End Re.

(** [[0-9A-HJ-KM-NP-TV-Z]] *)
Definition id_ranges : list (N * N) :=
  [(48, 57); (65, 72); (74, 75); (77, 78); (80, 84); (86, 90)]%N.

Definition id_char : N -> bool := Re.in_ranges id_ranges.

Definition search_id (s : str) : option str := Re.search id_char 26 s.

(** A string that is itself an identifier: 26 characters of the class. *)
Definition id_shaped (s : str) : bool :=
  (length s =? 26)%nat && forallb id_char s.

(** ** The client *)

Section Client.

(** Handler objects (coroutine functions, compared by identity). *)
Context {H : Type}.

(** [str.lower] beyond ASCII follows the interpreter's Unicode tables,
    which are left open; on ASCII text it maps [A-Z] to [a-z]. *)
Variable unicode_lower : str -> str.

Definition lower (s : str) : str :=
  if forallb is_ascii s then map ascii_lower s else unicode_lower s.

(** The attributes [__init__] assigns are always present; [cache] and
    [user] are only annotated there and exist once [start] has set them.
    The transport handles ([client], [http], [ws], [loop]) carry no state
    the facade reads back. *)
Record Client : Type := {
  cache_message_limit : Z;
  listeners : gmap str H;
  raw_listeners : gmap str H;
  cache : option CacheHandler.t;
  user : option User
}.

Definition init (cache_message_limit : option Z) : Client :=
  {| cache_message_limit := default 5000 cache_message_limit;
     listeners := ∅;
     raw_listeners := ∅;
     cache := None;
     user := None |}.

Definition set_listeners (self : Client) (l : gmap str H) : Client :=
  {| cache_message_limit := cache_message_limit self;
     listeners := l;
     raw_listeners := raw_listeners self;
     cache := cache self;
     user := user self |}.

Definition set_raw_listeners (self : Client) (l : gmap str H) : Client :=
  {| cache_message_limit := cache_message_limit self;
     listeners := listeners self;
     raw_listeners := l;
     cache := cache self;
     user := user self |}.

Definition set_cache (self : Client) (c : CacheHandler.t) : Client :=
  {| cache_message_limit := cache_message_limit self;
     listeners := listeners self;
     raw_listeners := raw_listeners self;
     cache := Some c;
     user := user self |}.

Definition set_user (self : Client) (u : User) : Client :=
  {| cache_message_limit := cache_message_limit self;
     listeners := listeners self;
     raw_listeners := raw_listeners self;
     cache := cache self;
     user := Some u |}.

(** *** Coroutines *)

(** What a call that leaves the client looks like from outside. *)
Inductive call : Type :=
  | CallHandler (func : H) (args : list value) (kwargs : dict)
  | CacheGetUser (key : str) (a : CacheHandler.attr)
  | FetchSelf.

Record run (A : Type) : Type := Run {
  calls : list call;
  final : Client;
  result : outcome A
}.
Arguments Run {A} calls final result.
Arguments calls {A} r.
Arguments final {A} r.
Arguments result {A} r.

Definition coro (A : Type) : Type := Client -> run A.

Definition ret {A : Type} (a : A) : coro A :=
  fun self => Run [] self (Returned a).

Definition raise {A : Type} (e : exn) : coro A :=
  fun self => Run [] self (Raised e).

Definition bind {A B : Type} (m : coro A) (k : A -> coro B) : coro B :=
  fun self =>
    let r := m self in
    match result r with
    | Returned a =>
        let r' := k a (final r) in
        Run (calls r ++ calls r') (final r') (result r')
    | Raised e => Run (calls r) (final r) (Raised e)
    | Pending => Run (calls r) (final r) Pending
    end.

Definition get_self : coro Client :=
  fun self => Run [] self (Returned self).

Definition put_self (self' : Client) : coro unit :=
  fun _ => Run [] self' (Returned tt).

(** [try: m except e: h] *)
Definition try_except {A : Type} (m : coro A) (e : exn) (h : coro A) : coro A :=
  fun self =>
    let r := m self in
    match result r with
    | Raised e' =>
        if decide (e' = e) then
          let r' := h (final r) in
          Run (calls r ++ calls r') (final r') (result r')
        else r
    | _ => r
    end.

Notation "x <- m ;; k" := (bind m (fun x => k))
  (at level 100, m at next level, right associativity).
Notation "m ;;; k" := (bind m (fun _ => k))
  (at level 100, right associativity).

(** *** Handlers *)

(** What calling and awaiting a handler does: the client it leaves
    behind and how the call ends. *)
Variable run_handler : H -> list value -> dict -> Client -> Client * outcome unit.

(** [await func(...)] with the positional and keyword arguments. *)
Definition await_call (func : H) (args : list value) (kwargs : dict) : coro unit :=
  fun self =>
    let (self', o) := run_handler func args kwargs self in
    Run [CallHandler func args kwargs] self' o.

(** *** Registration *)

Definition truthy (b : option bool) : bool := default false b.

(** [listen(event, raw=False)] returns the decorator [inner]. *)
Definition listen (event : str) (raw : option bool) : H -> Client -> Client * H :=
  fun func self =>
    if truthy raw then
      (set_raw_listeners self (<[lower event := func]> (raw_listeners self)), func)
    else
      (set_listeners self (<[lower event := func]> (listeners self)), func).

(** *** Dispatch *)

(** Handlers are function objects, which are always true in a boolean
    context: [if func := d.get(event)] tests presence. *)
Definition dispatch (event : str) (args : list value) (kwargs : dict) : coro unit :=
  let event := lower event in
  self <- get_self ;;
  match listeners self !! event with
  | Some func => await_call func args kwargs
  | None => ret tt
  end.

(** [payload["type"]] *)
Definition getitem (d : dict) (k : str) : coro value :=
  match dict_get d k with
  | Some v => ret v
  | None => raise KeyError
  end.

(** [v.lower()]: only strings have the method. *)
Definition call_lower (v : value) : coro str :=
  match v with
  | VStr s => ret (lower s)
  | _ => raise AttributeError
  end.

Definition raw_dispatch (payload : dict) : coro unit :=
  ty <- getitem payload (py "type") ;;
  event <- call_lower ty ;;
  self <- get_self ;;
  match raw_listeners self !! event with
  | Some func => await_call func [VDict payload] []
  | None => ret tt
  end.

(** *** User resolution *)

(** [self.cache.get_user(key, attr)] *)
Definition cache_get_user (key : str) (a : CacheHandler.attr) : coro User :=
  fun self =>
    match cache self with
    | None => Run [] self (Raised AttributeError)
    | Some c =>
        Run [CacheGetUser key a] self
          match CacheHandler.get_user c key a with
          | inl u => Returned u
          | inr e => Raised e
          end
    end.

Definition get_user (user : str) : coro (option User) :=
  match search_id user with
  | Some group0 =>
      u <- cache_get_user group0 CacheHandler.Id ;; ret (Some u)
  | None =>
      try_except
        (u <- cache_get_user user CacheHandler.Name ;; ret (Some u))
        ValueError
        (ret None)
  end.

(** *** Session start *)

(** The collaborators [start] reaches: the REST call [fetch_self] and the
    gateway's [connect], which runs the read loop. *)
Variable fetch_self : str -> outcome User.
Variable ws_connect : coro unit.

Definition await_fetch_self (token : str) : coro User :=
  fun self => Run [FetchSelf] self (fetch_self token).

Definition cache_add_user (u : User) : coro User :=
  self <- get_self ;;
  match cache self with
  | None => raise AttributeError
  | Some c =>
      let (c', u') := CacheHandler.add_user c u in
      put_self (set_cache self c') ;;; ret u'
  end.

(** The body of [start] up to the point where the gateway takes over. *)
Definition start_session (token : str) : coro unit :=
  self <- get_self ;;
  put_self (set_cache self (CacheHandler.init (cache_message_limit self))) ;;;
  me <- await_fetch_self token ;;
  u <- cache_add_user me ;;
  self <- get_self ;;
  put_self (set_user self u).

Definition start (token : str) : coro unit :=
  start_session token ;;; ws_connect.

(** The handlers a run invoked, in order. *)
Definition invoked {A : Type} (r : run A) : list H :=
  omap (fun c => match c with CallHandler f _ _ => Some f | _ => None end)
       (calls r).

(** The two branches of [get_user], named. *)
Definition lookup_by_id (key : str) : coro (option User) :=
  u <- cache_get_user key CacheHandler.Id ;; ret (Some u).

Definition lookup_by_name (key : str) : coro (option User) :=
  try_except
    (u <- cache_get_user key CacheHandler.Name ;; ret (Some u))
    ValueError
    (ret None).

(** Two event names that differ at most in letter case. *)
Definition case_variant (a b : str) : Prop := lower a = lower b.

(** The same, character by character, for ASCII text. *)
Definition case_pair (a b : N) : Prop :=
  a = b \/ (is_ascii_upper a = true /\ b = (a + 32)%N)
        \/ (is_ascii_upper b = true /\ a = (b + 32)%N).

(** [s] has an identifier somewhere inside it. *)
Definition contains_id (s : str) : Prop :=
  exists pre m post, s = pre ++ m ++ post /\ id_shaped m = true.

End Client.

Arguments Run {H A} calls final result.
Arguments calls {H A} r.
Arguments final {H A} r.
Arguments result {H A} r.

(** ** A concrete client *)

(** Text outside ASCII is left alone by this stand-in for the Unicode
    tables. *)
Definition demo_lower (s : str) : str := s.

(** Handlers are numbered: handler 1 raises, handler 2 never returns, the
    others return at once. *)
Definition demo_handlers
    (func : nat) (args : list value) (kwargs : dict) (self : @Client nat) :
    @Client nat * outcome unit :=
  match func with
  | 1%nat => (self, Raised (OtherError 7))
  | 2%nat => (self, Pending)
  | _ => (self, Returned tt)
  end.

Definition demo_id : str := py "01ARZ3NDEKTSV4RRFFQ69G5FAV".

Definition alice : User := {| user_id := demo_id; user_name := py "alice" |}.

Definition demo_fetch (token : str) : outcome User := Returned alice.

Definition demo_cache : CacheHandler.t :=
  {| CacheHandler.message_limit := 5000;
     CacheHandler.users := [alice];
     CacheHandler.messages := [] |}.

(** A started client with typed handlers for "ping", "stall" and "boom"
    and a raw handler for "Ready". *)
Definition demo_client : @Client nat :=
  let started := final (start_session demo_fetch (py "token") (init None)) in
  let c1 := fst (listen demo_lower (py "Ready") (Some true) 3%nat started) in
  let c2 := fst (listen demo_lower (py "boom") None 1%nat c1) in
  let c3 := fst (listen demo_lower (py "stall") None 2%nat c2) in
  fst (listen demo_lower (py "ping") None 0%nat c3).

Definition demo_message (id : string) : MessagePayload :=
  {| _id := py id; channel := py "general"; author := demo_id;
     content := Some (py "hello"); edited := None; mentions := None;
     replies := None; masquerade := None |}.

Definition demo_ops : list CacheHandler.op :=
  [CacheHandler.Put (demo_message "m1");
   CacheHandler.Get (py "m1");
   CacheHandler.Put (demo_message "m2");
   CacheHandler.Put (demo_message "m3");
   CacheHandler.Get (py "m1")].

Definition demo_mention : str := py "<@01ARZ3NDEKTSV4RRFFQ69G5FAV>".




(** The registry a registration with flag [raw] goes to. *)
Definition registry {H : Type} (raw : option bool) (self : @Client H) :
    gmap str H :=
  if truthy raw then raw_listeners self else listeners self.

(** A stand-in for the gateway that returns as soon as it is connected. *)
Definition demo_connect : @coro nat unit := ret tt.

Definition demo_failing_fetch (token : str) : outcome User :=
  Raised TransportError.

(** ** Properties *)

Section Properties.

Set Default Proof Using "Type".

Context {H : Type}.
Variable unicode_lower : str -> str.
Variable run_handler :
  H -> list value -> dict -> @Client H -> @Client H * outcome unit.
Variable fetch_self : str -> outcome User.
Variable ws_connect : @coro H unit.

#[local] Abbreviation Client := (@Client H).
#[local] Abbreviation run := (@run H).
#[local] Abbreviation init := (@init H).
#[local] Abbreviation coro := (@coro H).
#[local] Abbreviation lower := (lower unicode_lower).
#[local] Abbreviation case_variant := (case_variant unicode_lower).
#[local] Abbreviation listen := (listen unicode_lower).
#[local] Abbreviation await_call := (await_call run_handler).
#[local] Abbreviation dispatch := (dispatch unicode_lower run_handler).
#[local] Abbreviation raw_dispatch := (raw_dispatch unicode_lower run_handler).
#[local] Abbreviation start_session := (start_session fetch_self).
#[local] Abbreviation start := (start fetch_self ws_connect).


(** *** The coroutine monad *)

Lemma run_eta {A : Type} (r : run A) : Run (calls r) (final r) (result r) = r.
Proof. by destruct r. Qed.

Lemma bind_get_self {B : Type} (k : Client -> coro B) (self : Client) :
  bind get_self k self = k self self.
Proof. unfold bind, get_self; simpl. apply run_eta. Qed.

Lemma bind_ret {A B : Type} (a : A) (k : A -> coro B) (self : Client) :
  bind (ret a) k self = k a self.
Proof. unfold bind, ret; simpl. apply run_eta. Qed.

Lemma bind_raise {A B : Type} (e : exn) (k : A -> coro B) (self : Client) :
  bind (raise e) k self = Run [] self (Raised e).
Proof. reflexivity. Qed.

Lemma await_call_calls func args kwargs self :
  calls (await_call func args kwargs self) = [CallHandler func args kwargs].
Proof. unfold await_call. by destruct (run_handler _ _ _ _). Qed.

Lemma await_call_result func args kwargs self :
  result (await_call func args kwargs self)
  = snd (run_handler func args kwargs self).
Proof. unfold await_call. by destruct (run_handler _ _ _ _). Qed.

Lemma await_call_final func args kwargs self :
  final (await_call func args kwargs self)
  = fst (run_handler func args kwargs self).
Proof. unfold await_call. by destruct (run_handler _ _ _ _). Qed.

Lemma await_call_invoked func args kwargs self :
  invoked (await_call func args kwargs self) = [func].
Proof. unfold invoked. by rewrite await_call_calls. Qed.

(** *** Dispatch, by cases on the registry *)

Lemma dispatch_registered event args kwargs self func :
  listeners self !! lower event = Some func ->
  dispatch event args kwargs self = await_call func args kwargs self.
Proof.
  intros Hl. unfold dispatch. rewrite bind_get_self. by rewrite Hl.
Qed.

Lemma dispatch_absent event args kwargs self :
  listeners self !! lower event = None ->
  dispatch event args kwargs self = Run [] self (Returned tt).
Proof.
  intros Hl. unfold dispatch. rewrite bind_get_self. by rewrite Hl.
Qed.

Lemma raw_dispatch_typed payload event self :
  dict_get payload (py "type") = Some (VStr event) ->
  raw_dispatch payload self
  = match raw_listeners self !! lower event with
    | Some func => await_call func [VDict payload] [] self
    | None => Run [] self (Returned tt)
    end.
Proof.
  intros Hp. unfold raw_dispatch, getitem. rewrite Hp.
  rewrite bind_ret. unfold call_lower. rewrite bind_ret.
  rewrite bind_get_self. by destruct (raw_listeners self !! lower event).
Qed.

Lemma raw_dispatch_registered payload event self func :
  dict_get payload (py "type") = Some (VStr event) ->
  raw_listeners self !! lower event = Some func ->
  raw_dispatch payload self = await_call func [VDict payload] [] self.
Proof. intros Hp Hl. rewrite (raw_dispatch_typed _ _ _ Hp). by rewrite Hl. Qed.

Lemma raw_dispatch_absent payload event self :
  dict_get payload (py "type") = Some (VStr event) ->
  raw_listeners self !! lower event = None ->
  raw_dispatch payload self = Run [] self (Returned tt).
Proof. intros Hp Hl. rewrite (raw_dispatch_typed _ _ _ Hp). by rewrite Hl. Qed.

(** *** Registration *)

Lemma listen_returns_func (event : str) (raw : option bool) (func : H) (self : Client) :
  snd (listen event raw func self) = func.
Proof. unfold listen. by destruct (truthy raw). Qed.

Lemma listen_typed (event : str) (raw : option bool) (func : H) (self : Client) :
  truthy raw = false ->
  listeners (fst (listen event raw func self)) !! lower event = Some func
  /\ raw_listeners (fst (listen event raw func self)) = raw_listeners self.
Proof.
  intros Hr. unfold listen. rewrite Hr. simpl.
  by rewrite lookup_insert_eq.
Qed.

Lemma listen_raw (event : str) (raw : option bool) (func : H) (self : Client) :
  truthy raw = true ->
  raw_listeners (fst (listen event raw func self)) !! lower event = Some func
  /\ listeners (fst (listen event raw func self)) = listeners self.
Proof.
  intros Hr. unfold listen. rewrite Hr. simpl.
  by rewrite lookup_insert_eq.
Qed.

Lemma listen_twice (event : str) (raw : option bool) (f g : H) (self : Client) :
  fst (listen event raw g (fst (listen event raw f self)))
  = fst (listen event raw g self).
Proof.
  unfold listen. destruct (truthy raw); simpl;
    unfold set_listeners, set_raw_listeners; simpl;
    by rewrite insert_insert_eq.
Qed.

(** *** Letter case *)

Lemma lower_ascii (s : str) :
  forallb is_ascii s = true -> lower s = map ascii_lower s.
Proof. intros Hs. unfold lower. by rewrite Hs. Qed.

Lemma case_pair_lower (a b : N) :
  case_pair a b ->
  ascii_lower a = ascii_lower b /\ is_ascii a = is_ascii b.
Proof.
  unfold case_pair, ascii_lower, is_ascii, is_ascii_upper.
  intros [->|[[Hu ->]|[Hu ->]]]; [done| |].
  - apply andb_prop in Hu as [H1%N.leb_le H2%N.leb_le].
    rewrite (proj2 (N.leb_le 65 a) H1), (proj2 (N.leb_le a 90) H2). simpl.
    replace (a + 32 <=? 90)%N with false
      by (symmetry; apply N.leb_gt; lia).
    rewrite andb_false_r. split; [done|].
    rewrite (proj2 (N.ltb_lt a 128)) by lia.
    by rewrite (proj2 (N.ltb_lt (a + 32) 128)) by lia.
  - apply andb_prop in Hu as [H1%N.leb_le H2%N.leb_le].
    rewrite (proj2 (N.leb_le 65 b) H1), (proj2 (N.leb_le b 90) H2). simpl.
    replace (b + 32 <=? 90)%N with false
      by (symmetry; apply N.leb_gt; lia).
    rewrite andb_false_r. split; [done|].
    rewrite (proj2 (N.ltb_lt b 128)) by lia.
    by rewrite (proj2 (N.ltb_lt (b + 32) 128)) by lia.
Qed.

(** ASCII names that agree up to the case of their letters are case
    variants of each other. *)
Lemma case_variant_ascii (s t : str) :
  forallb is_ascii s = true -> Forall2 case_pair s t -> case_variant s t.
Proof.
  intros Hs Hst. unfold case_variant.
  assert (forallb is_ascii t = true /\ map ascii_lower s = map ascii_lower t)
    as [Ht Hm].
  { induction Hst as [|a b s t Hab Hst IH]; [done|].
    simpl in Hs. apply andb_prop in Hs as [Ha Hs].
    destruct (case_pair_lower a b Hab) as [Hl Hi].
    destruct (IH Hs) as [Ht Hm]. simpl.
    rewrite <- Hi, Ha, Ht, Hl, Hm. done. }
  by rewrite (lower_ascii s Hs), (lower_ascii t Ht).
Qed.

(** *** The identifier pattern *)

Lemma match_here_spec (cls : N -> bool) (n : nat) (s m : str) :
  Re.match_here cls n s = Some m <->
  exists post, s = m ++ post /\ length m = n /\ forallb cls m = true.
Proof.
  revert s m. induction n as [|n IH]; intros s m; simpl.
  - split.
    + intros [= <-]. by exists s.
    + intros (post & _ & Hl & _). by destruct m.
  - destruct s as [|c s].
    + split; [done|]. intros (post & Hs & Hl & _). by destruct m.
    + destruct (cls c) eqn:Hc.
      * destruct (Re.match_here cls n s) as [m'|] eqn:Hm; simpl.
        -- apply IH in Hm as (post & -> & Hl & Hall). split.
           ++ intros [= <-]. exists post. simpl. by rewrite Hc, Hl, Hall.
           ++ intros (post' & Hs & Hl' & Hall').
              destruct m as [|c' m]; [done|]. simpl in *.
              injection Hs as <- Hs. f_equal. f_equal.
              apply andb_prop in Hall' as [_ Hall'].
              assert (Re.match_here cls n (m' ++ post) = Some m) as Hm2.
              { apply IH. exists post'. split; [done|]. split; [lia|done]. }
              assert (Re.match_here cls n (m' ++ post) = Some m') as Hm1.
              { apply IH. by exists post. }
              congruence.
        -- split; [done|]. intros (post' & Hs & Hl' & Hall').
           destruct m as [|c' m]; [done|]. simpl in *.
           injection Hs as <- Hs. apply andb_prop in Hall' as [_ Hall'].
           assert (Re.match_here cls n s = Some m) as Hm2.
           { apply IH. exists post'. split; [done|]. split; [lia|done]. }
           congruence.
      * split; [done|]. intros (post' & Hs & Hl' & Hall').
        destruct m as [|c' m]; [done|]. simpl in *.
        injection Hs as <- Hs. by rewrite Hc in Hall'.
Qed.

Lemma search_unfold (cls : N -> bool) (n : nat) (s : str) :
  Re.search cls n s
  = match Re.match_here cls n s with
    | Some m => Some m
    | None => match s with [] => None | _ :: s' => Re.search cls n s' end
    end.
Proof. by destruct s. Qed.

(** A successful search returns the leftmost run of [n] class
    characters. *)
Lemma search_Some (cls : N -> bool) (n : nat) (s m : str) :
  Re.search cls n s = Some m ->
  exists pre post,
    s = pre ++ m ++ post /\ length m = n /\ forallb cls m = true /\
    forall pre' m' post',
      s = pre' ++ m' ++ post' -> length m' = n -> forallb cls m' = true ->
      (length pre <= length pre')%nat.
Proof.
  revert m. induction s as [|c s IH]; intros m; rewrite search_unfold.
  - destruct (Re.match_here cls n []) as [m0|] eqn:Hm; [|done].
    intros [= ->]. apply match_here_spec in Hm as (post & Hs & Hl & Hall).
    exists [], post. repeat split; try done. intros. simpl. lia.
  - destruct (Re.match_here cls n (c :: s)) as [m0|] eqn:Hm.
    + intros [= ->]. apply match_here_spec in Hm as (post & Hs & Hl & Hall).
      exists [], post. repeat split; try done. intros. simpl. lia.
    + intros Hs. destruct (IH m Hs) as (pre & post & -> & Hl & Hall & Hleft).
      exists (c :: pre), post. repeat split; try done.
      intros pre' m' post' Hdec Hl' Hall'.
      destruct pre' as [|c' pre'].
      * simpl in Hdec.
        assert (Re.match_here cls n (c :: pre ++ m ++ post) = Some m') as Hm'.
        { apply match_here_spec. by exists post'. }
        congruence.
      * simpl in Hdec. injection Hdec as <- Hdec. simpl.
        specialize (Hleft pre' m' post' Hdec Hl' Hall'). lia.
Qed.

(** A failed search means no such run occurs anywhere. *)
Lemma search_None (cls : N -> bool) (n : nat) (s : str) :
  Re.search cls n s = None ->
  forall pre m post,
    s = pre ++ m ++ post -> length m = n -> forallb cls m = true -> False.
Proof.
  induction s as [|c s IH]; rewrite search_unfold.
  - destruct (Re.match_here cls n []) as [m0|] eqn:Hm; [done|].
    intros _ pre m post Hdec Hl Hall.
    destruct pre; [|done]. simpl in Hdec.
    assert (Re.match_here cls n [] = Some m) as Hm'.
    { apply match_here_spec. by exists post. }
    congruence.
  - destruct (Re.match_here cls n (c :: s)) as [m0|] eqn:Hm; [done|].
    intros Hs pre m post Hdec Hl Hall.
    destruct pre as [|c' pre].
    + simpl in Hdec.
      assert (Re.match_here cls n (c :: s) = Some m) as Hm'.
      { apply match_here_spec. by exists post. }
      congruence.
    + simpl in Hdec. injection Hdec as <- Hdec.
      by apply (IH Hs pre m post).
Qed.

Lemma id_shaped_spec (m : str) :
  id_shaped m = true <-> length m = 26%nat /\ forallb id_char m = true.
Proof.
  unfold id_shaped. rewrite andb_true_iff, Nat.eqb_eq. done.
Qed.

Lemma search_id_self (s : str) :
  id_shaped s = true -> search_id s = Some s.
Proof.
  intros [Hl Hall]%id_shaped_spec. unfold search_id.
  rewrite search_unfold.
  assert (Re.match_here id_char 26 s = Some s) as ->; [|done].
  apply match_here_spec. exists []. by rewrite app_nil_r.
Qed.

Lemma search_id_None (s : str) :
  search_id s = None <-> ~ contains_id s.
Proof.
  split.
  - intros Hs (pre & m & post & Hdec & [Hl Hall]%id_shaped_spec).
    by apply (search_None _ _ _ Hs pre m post).
  - intros Hn. destruct (search_id s) as [m|] eqn:Hs; [|done].
    destruct Hn. apply search_Some in Hs as (pre & post & Hdec & Hl & Hall & _).
    exists pre, m, post. split; [done|]. by apply id_shaped_spec.
Qed.

Lemma search_id_contains (s : str) :
  contains_id s -> exists m, search_id s = Some m.
Proof.
  intros Hc. destruct (search_id s) as [m|] eqn:Hs; [by exists m|].
  by apply search_id_None in Hs.
Qed.

(** *** Claims about registration and dispatch *)

(** C6: registering [f] and then [g] for the same event name in the same
    registry leaves the client exactly as if only [g] had been
    registered; a later dispatch for that name (typed, or raw through
    the payload's "type") awaits [g] and invokes no other handler, so
    [f], when it is a different handler, is not invoked.  Registration
    is a total function: there is no conflict error. *)
Theorem C6_last_registration_wins
    (self : Client) (event : str) (raw : option bool) (f g : H)
    (args : list value) (kwargs : dict) (payload : dict) :
  let self' := fst (listen event raw g (fst (listen event raw f self))) in
  self' = fst (listen event raw g self) /\
  (truthy raw = false ->
     listeners self' !! lower event = Some g /\
     dispatch event args kwargs self' = await_call g args kwargs self' /\
     invoked (dispatch event args kwargs self') = [g] /\
     (f <> g -> ~ In f (invoked (dispatch event args kwargs self')))) /\
  (truthy raw = true ->
     dict_get payload (py "type") = Some (VStr event) ->
     raw_listeners self' !! lower event = Some g /\
     raw_dispatch payload self' = await_call g [VDict payload] [] self' /\
     invoked (raw_dispatch payload self') = [g] /\
     (f <> g -> ~ In f (invoked (raw_dispatch payload self')))).
Proof.
  intros self'. subst self'. rewrite listen_twice.
  split; [reflexivity|]. split.
  - intros Hr. destruct (listen_typed event raw g self Hr) as [Hg _].
    rewrite (dispatch_registered _ _ _ _ _ Hg), await_call_invoked.
    repeat split; try done.
    intros Hne [Hin|[]]. by apply Hne.
  - intros Hr Hp. destruct (listen_raw event raw g self Hr) as [Hg _].
    rewrite (raw_dispatch_registered _ _ _ _ Hp Hg), await_call_invoked.
    repeat split; try done.
    intros Hne [Hin|[]]. by apply Hne.
Qed.

(** C7: a handler registered under a name is the one awaited, with the
    dispatched arguments, when any case variant of that name is
    dispatched: typed dispatch by the event name, raw dispatch by the
    payload's "type" field. *)
Theorem C7_case_insensitive_matching
    (self : Client) (name name' : str) (raw : option bool) (func : H)
    (args : list value) (kwargs : dict) (payload : dict) :
  case_variant name name' ->
  let self' := fst (listen name raw func self) in
  (truthy raw = false ->
     dispatch name' args kwargs self' = await_call func args kwargs self' /\
     calls (dispatch name' args kwargs self') = [CallHandler func args kwargs]) /\
  (truthy raw = true ->
     dict_get payload (py "type") = Some (VStr name') ->
     raw_dispatch payload self' = await_call func [VDict payload] [] self' /\
     calls (raw_dispatch payload self') = [CallHandler func [VDict payload] []]).
Proof.
  intros Hcv self'. subst self'. unfold case_variant in Hcv. split.
  - intros Hr. destruct (listen_typed name raw func self Hr) as [Hf _].
    rewrite Hcv in Hf.
    rewrite (dispatch_registered _ _ _ _ _ Hf), await_call_calls. done.
  - intros Hr Hp. destruct (listen_raw name raw func self Hr) as [Hf _].
    rewrite Hcv in Hf.
    rewrite (raw_dispatch_registered _ _ _ _ Hp Hf), await_call_calls. done.
Qed.

(** C8: dispatching an event name under which the registry holds no
    handler does nothing: no call is made, the coroutine returns
    normally and the client, registries included, is as before. *)
Theorem C8_absent_handler_is_noop
    (self : Client) (event : str) (args : list value) (kwargs : dict)
    (payload : dict) :
  (listeners self !! lower event = None ->
     dispatch event args kwargs self = Run [] self (Returned tt)) /\
  (dict_get payload (py "type") = Some (VStr event) ->
     raw_listeners self !! lower event = None ->
     raw_dispatch payload self = Run [] self (Returned tt)).
Proof.
  split.
  - apply dispatch_absent.
  - apply raw_dispatch_absent.
Qed.

(** C9: [raw_dispatch] on a payload without a "type" key raises
    [KeyError], and on one whose "type" is not a string raises
    [AttributeError]; in both cases no handler is invoked and the
    outcome is the same whatever the registries hold. *)
Theorem C9_raw_dispatch_needs_type (self : Client) (payload : dict) :
  (dict_get payload (py "type") = None ->
     raw_dispatch payload self = Run [] self (Raised KeyError)) /\
  (forall v, dict_get payload (py "type") = Some v ->
     (forall s, v <> VStr s) ->
     raw_dispatch payload self = Run [] self (Raised AttributeError)).
Proof.
  split.
  - intros Hp. unfold raw_dispatch, getitem. by rewrite Hp.
  - intros v Hp Hv. unfold raw_dispatch, getitem. rewrite Hp, bind_ret.
    destruct v; try reflexivity. by destruct (Hv s).
Qed.

(** C2 (as the code has it): dispatch awaits the registered handler
    inline.  The dispatch call ends exactly as the handler does, so for
    a handler that never returns the call never completes and nothing
    sequenced after it in the same coroutine runs. *)
Theorem C2_dispatch_awaits_inline
    (self : Client) (event : str) (args : list value) (kwargs : dict)
    (func : H) :
  listeners self !! lower event = Some func ->
  dispatch event args kwargs self = await_call func args kwargs self /\
  (snd (run_handler func args kwargs self) = Pending ->
     result (dispatch event args kwargs self) = Pending /\
     forall next : coro unit,
       calls (bind (dispatch event args kwargs) (fun _ => next) self)
       = [CallHandler func args kwargs] /\
       result (bind (dispatch event args kwargs) (fun _ => next) self)
       = Pending).
Proof.
  intros Hl. rewrite (dispatch_registered _ _ _ _ _ Hl).
  split; [reflexivity|]. intros Hp.
  rewrite await_call_result. split; [done|]. intros next.
  unfold bind. rewrite (dispatch_registered _ _ _ _ _ Hl).
  rewrite await_call_result, Hp. simpl.
  by rewrite await_call_calls.
Qed.

(** C3 (as the code has it): an error raised by the registered handler
    leaves the dispatch call unchanged, for typed and for raw dispatch:
    the call raises the same error after the one invocation, and
    nothing sequenced after it in the same coroutine runs. *)
Theorem C3_handler_error_propagates
    (self : Client) (event : str) (args : list value) (kwargs : dict)
    (payload : dict) (func : H) (e : exn) :
  (listeners self !! lower event = Some func ->
   snd (run_handler func args kwargs self) = Raised e ->
     result (dispatch event args kwargs self) = Raised e /\
     forall next : coro unit,
       calls (bind (dispatch event args kwargs) (fun _ => next) self)
       = [CallHandler func args kwargs] /\
       result (bind (dispatch event args kwargs) (fun _ => next) self)
       = Raised e) /\
  (dict_get payload (py "type") = Some (VStr event) ->
   raw_listeners self !! lower event = Some func ->
   snd (run_handler func [VDict payload] [] self) = Raised e ->
     result (raw_dispatch payload self) = Raised e /\
     forall next : coro unit,
       calls (bind (raw_dispatch payload) (fun _ => next) self)
       = [CallHandler func [VDict payload] []] /\
       result (bind (raw_dispatch payload) (fun _ => next) self)
       = Raised e).
Proof.
  split.
  - intros Hl He. rewrite (dispatch_registered _ _ _ _ _ Hl).
    rewrite await_call_result. split; [done|]. intros next.
    unfold bind. rewrite (dispatch_registered _ _ _ _ _ Hl).
    rewrite await_call_result, He. simpl. by rewrite await_call_calls.
  - intros Hp Hl He. rewrite (raw_dispatch_registered _ _ _ _ Hp Hl).
    rewrite await_call_result. split; [done|]. intros next.
    unfold bind.
    rewrite (raw_dispatch_registered _ _ _ _ Hp Hl).
    rewrite await_call_result, He. simpl. by rewrite await_call_calls.
Qed.

(** *** User resolution *)

Lemma get_user_by_id (user group0 : str) (self : Client) :
  search_id user = Some group0 ->
  get_user user self = lookup_by_id group0 self.
Proof. intros Hs. unfold get_user. by rewrite Hs. Qed.

Lemma get_user_by_name (user : str) (self : Client) :
  search_id user = None ->
  get_user user self = lookup_by_name user self.
Proof. intros Hs. unfold get_user. by rewrite Hs. Qed.

Lemma lookup_by_id_calls (key : str) (self : Client) :
  calls (lookup_by_id key self)
  = match cache self with
    | None => []
    | Some _ => [CacheGetUser key CacheHandler.Id]
    end.
Proof.
  unfold lookup_by_id, bind, cache_get_user.
  destruct (cache self) as [c|]; [|done]. simpl.
  by destruct (CacheHandler.get_user c key CacheHandler.Id).
Qed.

Lemma cache_get_None {A : Type} (key : A -> str) (l : list A) (k : str) :
  (forall x, In x l -> key x <> k) -> CacheHandler.get key l k = None.
Proof.
  unfold CacheHandler.get. induction l as [|y l IH]; intros Hn; [done|].
  simpl. rewrite bool_decide_eq_false_2.
  - apply IH. intros x Hx. apply Hn. by right.
  - apply Hn. by left.
Qed.

(** C4 (as the code has it): an input that is itself an identifier is
    resolved by identifier look-up of the input; an input that contains
    an identifier is resolved by identifier look-up of the matched text;
    an input that contains none is resolved by name look-up, where
    "not found" becomes the result [None]. *)
Theorem C4_get_user_routes_by_search (self : Client) (user : str) :
  (id_shaped user = true ->
     get_user user self = lookup_by_id user self) /\
  (contains_id user ->
     exists group0, search_id user = Some group0 /\
       get_user user self = lookup_by_id group0 self) /\
  (~ contains_id user ->
     get_user user self = lookup_by_name user self).
Proof.
  split; [|split].
  - intros Hid. apply get_user_by_id. by apply search_id_self.
  - intros Hc. destruct (search_id_contains user Hc) as [m Hm].
    exists m. split; [done|]. by apply get_user_by_id.
  - intros Hn. apply get_user_by_name. by apply search_id_None.
Qed.

(** C5: on a started client, an input that goes to name look-up and
    names no cached user makes [get_user] return [None]: the one cache
    call is the name look-up, and its "not found" does not reach the
    caller as an exception. *)
Theorem C5_unknown_name_is_none
    (self : Client) (c : CacheHandler.t) (user : str) :
  cache self = Some c ->
  ~ contains_id user ->
  (forall u, In u (CacheHandler.users c) -> user_name u <> user) ->
  get_user user self
  = Run [CacheGetUser user CacheHandler.Name] self (Returned None).
Proof.
  intros Hc Hn Hu. rewrite get_user_by_name by by apply search_id_None.
  unfold lookup_by_name, try_except, bind, cache_get_user. rewrite Hc.
  unfold CacheHandler.get_user.
  rewrite (cache_get_None user_name _ _ Hu). simpl.
  done.
Qed.

(** C10: whenever a run of 26 identifier characters occurs anywhere in
    the input, [get_user] looks up by identifier the leftmost such run
    (not the whole input) and makes no name look-up. *)
Theorem C10_get_user_searches_substring (self : Client) (user : str) :
  contains_id user ->
  exists pre group0 post,
    user = pre ++ group0 ++ post /\
    id_shaped group0 = true /\
    (forall pre' m' post',
       user = pre' ++ m' ++ post' -> id_shaped m' = true ->
       (length pre <= length pre')%nat) /\
    get_user user self = lookup_by_id group0 self /\
    (forall key, ~ In (CacheGetUser key CacheHandler.Name)
                      (calls (get_user user self))).
Proof.
  intros Hc. destruct (search_id_contains user Hc) as [m Hm].
  pose proof Hm as Hs. unfold search_id in Hs.
  apply search_Some in Hs as (pre & post & Hdec & Hl & Hall & Hleft).
  exists pre, m, post. split; [done|].
  split; [by apply id_shaped_spec|]. split.
  - intros pre' m' post' Hdec' [Hl' Hall']%id_shaped_spec.
    by apply (Hleft pre' m' post').
  - rewrite (get_user_by_id _ _ _ Hm). split; [done|].
    intros key. rewrite lookup_by_id_calls.
    destruct (cache self); simpl; [|by intros []].
    intros [Heq|[]]. discriminate.
Qed.

(** *** The message cache *)




(** Reads leave the store as it is. *)
Lemma step_get (c : CacheHandler.t) (k : str) :
  fst (CacheHandler.step c (CacheHandler.Get k)) = c.
Proof. reflexivity. Qed.



(** *** Session start *)


(** *** Every sequence of writes *)









(** ** Further properties of the facade *)

(** *** What a dispatch call calls *)

Lemma dispatch_calls (event : str) (args : list value) (kwargs : dict)
    (self : Client) :
  calls (dispatch event args kwargs self)
  = match listeners self !! lower event with
    | Some func => [CallHandler func args kwargs]
    | None => []
    end.
Proof.
  destruct (listeners self !! lower event) as [func|] eqn:Hl.
  - by rewrite (dispatch_registered _ _ _ _ _ Hl), await_call_calls.
  - by rewrite (dispatch_absent _ _ _ _ Hl).
Qed.

Lemma raw_dispatch_calls (payload : dict) (self : Client) :
  calls (raw_dispatch payload self)
  = match dict_get payload (py "type") with
    | Some (VStr event) =>
        match raw_listeners self !! lower event with
        | Some func => [CallHandler func [VDict payload] []]
        | None => []
        end
    | _ => []
    end.
Proof.
  destruct (dict_get payload (py "type")) as [v|] eqn:Hp.
  - destruct v as [| | |event| |];
      try (unfold raw_dispatch, getitem; rewrite Hp, bind_ret; reflexivity).
    rewrite (raw_dispatch_typed _ _ _ Hp).
    destruct (raw_listeners self !! lower event); [|done].
    by rewrite await_call_calls.
  - unfold raw_dispatch, getitem. by rewrite Hp.
Qed.

Lemma dispatch_invoked (event : str) (args : list value) (kwargs : dict)
    (self : Client) :
  invoked (dispatch event args kwargs self)
  = match listeners self !! lower event with
    | Some func => [func]
    | None => []
    end.
Proof.
  unfold invoked. rewrite dispatch_calls.
  by destruct (listeners self !! lower event).
Qed.

Lemma raw_dispatch_invoked (payload : dict) (event : str) (self : Client) :
  dict_get payload (py "type") = Some (VStr event) ->
  invoked (raw_dispatch payload self)
  = match raw_listeners self !! lower event with
    | Some func => [func]
    | None => []
    end.
Proof.
  intros Hp. unfold invoked. rewrite raw_dispatch_calls, Hp.
  by destruct (raw_listeners self !! lower event).
Qed.

(** *** Construction and registration *)

(** X1: a client that was just constructed has no handlers: typed dispatch
    of any event, and raw dispatch of any payload whose "type" is a
    string, make no call, return normally and leave the client as it
    is. *)
Theorem X1_fresh_client_ignores_events
    (limit : option Z) (event : str) (args : list value) (kwargs : dict)
    (payload : dict) :
  dispatch event args kwargs (init limit)
  = Run [] (init limit) (Returned tt) /\
  (dict_get payload (py "type") = Some (VStr event) ->
   raw_dispatch payload (init limit) = Run [] (init limit) (Returned tt)).
Proof.
  split.
  - by apply dispatch_absent.
  - intros Hp. by apply (raw_dispatch_absent _ _ _ Hp).
Qed.

(** X2: a typed and a raw handler registered for the same event name live
    side by side, in whichever order they were registered: typed dispatch
    of the name invokes the typed handler only, raw dispatch of a payload
    of that type invokes the raw handler only. *)
Theorem X2_typed_and_raw_handlers_coexist
    (self : Client) (event : str) (typed_flag raw_flag : option bool)
    (f g : H) (args : list value) (kwargs : dict) (payload : dict) :
  truthy typed_flag = false ->
  truthy raw_flag = true ->
  dict_get payload (py "type") = Some (VStr event) ->
  let self' :=
    fst (listen event raw_flag g (fst (listen event typed_flag f self))) in
  self' = fst (listen event typed_flag f (fst (listen event raw_flag g self)))
  /\ invoked (dispatch event args kwargs self') = [f]
  /\ invoked (raw_dispatch payload self') = [g].
Proof.
  intros Ht Hr Hp self'. subst self'. unfold listen.
  rewrite Ht, Hr. simpl. split; [reflexivity|].
  rewrite dispatch_invoked, (raw_dispatch_invoked _ _ _ Hp). simpl.
  by rewrite !lookup_insert_eq.
Qed.

(** X3: registering a handler under one name leaves every handler
    registered under a name with a different lower-case form, in either
    registry, where it was, and leaves the cache, the user and the message
    limit alone: dispatch of such another name makes the calls it made
    before. *)
Theorem X3_listen_keeps_other_handlers
    (self : Client) (event other : str) (raw : option bool) (func : H)
    (args : list value) (kwargs : dict) (payload : dict) :
  lower other <> lower event ->
  let self' := fst (listen event raw func self) in
  listeners self' !! lower other = listeners self !! lower other /\
  raw_listeners self' !! lower other = raw_listeners self !! lower other /\
  cache self' = cache self /\ user self' = user self /\
  cache_message_limit self' = cache_message_limit self /\
  calls (dispatch other args kwargs self')
  = calls (dispatch other args kwargs self) /\
  (dict_get payload (py "type") = Some (VStr other) ->
   calls (raw_dispatch payload self') = calls (raw_dispatch payload self)).
Proof.
  intros Hne self'.
  assert (listeners self' !! lower other = listeners self !! lower other
          /\ raw_listeners self' !! lower other
              = raw_listeners self !! lower other) as [Hl Hr].
  { subst self'. unfold listen. destruct (truthy raw); simpl;
      by rewrite lookup_insert_ne. }
  split; [done|]. split; [done|].
  split; [subst self'; unfold listen; by destruct (truthy raw)|].
  split; [subst self'; unfold listen; by destruct (truthy raw)|].
  split; [subst self'; unfold listen; by destruct (truthy raw)|].
  split.
  - by rewrite !dispatch_calls, Hl.
  - intros Hp. by rewrite !raw_dispatch_calls, Hp, Hr.
Qed.

(** X4: the decorator returns the function it was given, so decorators
    stack: applying [listen(a, raw=ra)] on top of [listen(b, raw=rb)]
    yields the function itself and registers it under both names, each in
    the registry its flag selects. *)
Theorem X4_listen_decorators_stack
    (self : Client) (a b : str) (ra rb : option bool) (func : H) :
  let inner := listen b rb func self in
  let outer := listen a ra (snd inner) (fst inner) in
  snd outer = func /\
  registry ra (fst outer) !! lower a = Some func /\
  registry rb (fst outer) !! lower b = Some func.
Proof.
  intros inner outer. subst inner outer. unfold listen, registry.
  destruct (truthy ra) eqn:Ha, (truthy rb) eqn:Hb; simpl;
    rewrite ?Ha, ?Hb; simpl;
    (split; [reflexivity|]); (split; [by rewrite lookup_insert_eq|]);
    rewrite ?lookup_insert; repeat case_decide; done.
Qed.

(** X5: for ASCII event names the lower-case form is a fixed point of
    lowering, so registering under a name and registering under its
    lower-case form are the same registration. *)
Theorem X5_listen_under_lowered_name
    (self : Client) (event : str) (raw : option bool) (func : H) :
  forallb is_ascii event = true ->
  lower (lower event) = lower event /\
  listen (lower event) raw func self = listen event raw func self.
Proof.
  intros Hs.
  assert (lower (lower event) = lower event) as Hidem.
  { rewrite (lower_ascii event Hs).
    assert (forallb is_ascii (map ascii_lower event) = true
            /\ map ascii_lower (map ascii_lower event) = map ascii_lower event)
      as [Ha Hm].
    { clear func raw self. induction event as [|c s IH]; [done|].
      simpl in Hs. apply andb_prop in Hs as [Hc Hs].
      destruct (IH Hs) as [Ha Hm]. simpl. rewrite Ha, Hm.
      unfold ascii_lower, is_ascii_upper, is_ascii in *.
      apply N.ltb_lt in Hc.
      destruct ((65 <=? c)%N && (c <=? 90)%N) eqn:Hu.
      - apply andb_prop in Hu as [H1%N.leb_le H2%N.leb_le].
        replace (c + 32 <=? 90)%N with false
          by (symmetry; apply N.leb_gt; lia).
        rewrite andb_false_r.
        by rewrite (proj2 (N.ltb_lt (c + 32) 128)) by lia.
      - rewrite Hu. by rewrite (proj2 (N.ltb_lt c 128)) by lia. }
    by rewrite (lower_ascii _ Ha). }
  split; [done|]. unfold listen. by rewrite Hidem.
Qed.

(** *** User resolution *)

Lemma search_skip (cls : N -> bool) (n : nat) (c : N) (s : str) :
  cls c = false ->
  Re.search cls (S n) (c :: s) = Re.search cls (S n) s.
Proof. intros Hc. simpl. by rewrite Hc. Qed.

Lemma search_id_wrapped (pre id post : str) :
  id_shaped id = true ->
  Forall (fun c => id_char c = false) pre ->
  search_id (pre ++ id ++ post) = Some id.
Proof.
  intros [Hl Hall]%id_shaped_spec Hpre. unfold search_id.
  induction Hpre as [|c pre Hc Hpre IH].
  - change ([] ++ id ++ post) with (id ++ post). rewrite search_unfold.
    assert (Re.match_here id_char 26 (id ++ post) = Some id) as ->; [|done].
    apply match_here_spec. by exists post.
  - rewrite <- app_comm_cons. change 26%nat with (S 25).
    by rewrite (search_skip id_char 25 c _ Hc).
Qed.

(** X6: before [start] has run the client has no cache, and [get_user]
    raises [AttributeError] for every input, identifier or name, without
    any look-up. *)
Theorem X6_get_user_needs_started_client (self : Client) (user : str) :
  cache self = None ->
  get_user user self = Run [] self (Raised AttributeError).
Proof.
  intros Hc. unfold get_user, try_except, bind, cache_get_user.
  destruct (search_id user); by rewrite Hc.
Qed.

(** X7: an input of fewer than 26 characters, the empty string included,
    cannot hold an identifier and is always resolved by name. *)
Theorem X7_get_user_short_input_is_a_name (self : Client) (user : str) :
  (length user < 26)%nat ->
  get_user user self = lookup_by_name user self.
Proof.
  intros Hlen. apply get_user_by_name. apply search_id_None.
  intros (pre & m & post & -> & [Hl _]%id_shaped_spec).
  rewrite !length_app in Hlen. lia.
Qed.

(** X8: text around an identifier is ignored: when no identifier
    character precedes it, an identifier wrapped in a mention, or followed
    by anything at all, is resolved exactly as the bare identifier. *)
Theorem X8_get_user_ignores_wrapping
    (self : Client) (pre id post : str) :
  id_shaped id = true ->
  Forall (fun c => id_char c = false) pre ->
  get_user (pre ++ id ++ post) self = get_user id self.
Proof.
  intros Hid Hpre.
  rewrite (get_user_by_id _ _ _ (search_id_wrapped pre id post Hid Hpre)).
  by rewrite (get_user_by_id _ _ _ (search_id_self id Hid)).
Qed.

(** X9: the text the search matches is itself an identifier, and
    resolving it alone gives what resolving the whole input gave. *)
Theorem X9_get_user_resolves_matched_text
    (self : Client) (user group0 : str) :
  search_id user = Some group0 ->
  id_shaped group0 = true /\
  search_id group0 = Some group0 /\
  get_user group0 self = get_user user self.
Proof.
  intros Hs.
  assert (id_shaped group0 = true) as Hid.
  { pose proof Hs as Hs'. unfold search_id in Hs'.
    apply search_Some in Hs' as (_ & _ & _ & Hl & Hall & _).
    by apply id_shaped_spec. }
  split; [done|]. split; [by apply search_id_self|].
  rewrite (get_user_by_id _ _ _ Hs).
  by rewrite (get_user_by_id _ _ _ (search_id_self group0 Hid)).
Qed.

(** X10: [get_user] only reads: whatever the input, it leaves the client
    as it was, invokes no handler and makes at most one cache look-up. *)
Theorem X10_get_user_only_reads (self : Client) (user : str) :
  final (get_user user self) = self /\
  invoked (get_user user self) = [] /\
  (length (calls (get_user user self)) <= 1)%nat.
Proof.
  unfold get_user, invoked, try_except, bind, cache_get_user.
  destruct (search_id user) as [m|]; destruct (cache self) as [c|]; simpl;
    try (repeat split; done || lia).
  - destruct (CacheHandler.get_user c m CacheHandler.Id); simpl;
      repeat split; done || lia.
  - destruct (CacheHandler.get_user c user CacheHandler.Name) as [u|e]; simpl;
      [repeat split; done || lia|].
    destruct (decide (e = ValueError)); simpl; repeat split; done || lia.
Qed.


(** *** Session start *)

(** The run of the body of [start] before the gateway, by how the REST
    call ends. *)
Lemma start_session_run (token : str) (self : Client) :
  start_session token self
  = let fresh := CacheHandler.init (cache_message_limit self) in
    match fetch_self token with
    | Returned me =>
        Run [FetchSelf]
            (set_user (set_cache (set_cache self fresh)
                                 (fst (CacheHandler.add_user fresh me)))
                      (snd (CacheHandler.add_user fresh me)))
            (Returned tt)
    | Raised e => Run [FetchSelf] (set_cache self fresh) (Raised e)
    | Pending => Run [FetchSelf] (set_cache self fresh) Pending
    end.
Proof.
  unfold start_session, bind, get_self, put_self, await_fetch_self,
    cache_add_user, bind, get_self, put_self, ret, raise. simpl.
  by destruct (fetch_self token).
Qed.

(** X11: when the REST call for the bot's own user fails, [start] ends in
    that same error, and when the call never answers [start] never
    completes; either way the gateway is not connected, no user is set
    and the handlers stay registered, but the client already carries the
    newly constructed cache. *)
Theorem X11_start_stops_when_fetch_fails (token : str) (self : Client) :
  let fresh := CacheHandler.init (cache_message_limit self) in
  (forall e, fetch_self token = Raised e ->
     start token self = Run [FetchSelf] (set_cache self fresh) (Raised e)) /\
  (fetch_self token = Pending ->
     start token self = Run [FetchSelf] (set_cache self fresh) Pending).
Proof.
  intros fresh. split.
  - intros e He. unfold start, bind.
    rewrite start_session_run, He. reflexivity.
  - intros He. unfold start, bind.
    rewrite start_session_run, He. reflexivity.
Qed.

(** X12: when the REST call answers, [start] goes on into the gateway's
    [connect] and ends as that does.  The gateway is entered with the
    handlers and the message limit the client had, a cache built with
    that limit and holding no message, and the user set. *)
Theorem X12_start_hands_over_to_gateway
    (token : str) (self : Client) (me : User) :
  fetch_self token = Returned me ->
  exists self',
    listeners self' = listeners self /\
    raw_listeners self' = raw_listeners self /\
    cache_message_limit self' = cache_message_limit self /\
    (exists c, cache self' = Some c /\
       CacheHandler.message_limit c = cache_message_limit self /\
       CacheHandler.messages c = []) /\
    is_Some (user self') /\
    calls (start token self) = FetchSelf :: calls (ws_connect self') /\
    final (start token self) = final (ws_connect self') /\
    result (start token self) = result (ws_connect self').
Proof.
  intros He.
  set (fresh := CacheHandler.init (cache_message_limit self)).
  exists (set_user (set_cache (set_cache self fresh)
                              (fst (CacheHandler.add_user fresh me)))
                   (snd (CacheHandler.add_user fresh me))).
  split; [reflexivity|]. split; [reflexivity|]. split; [reflexivity|].
  split; [eexists; repeat split; reflexivity|].
  split; [by eexists|].
  unfold start, bind. rewrite start_session_run, He. simpl.
  done.
Qed.

(** X13: handlers registered before the session starts are the handlers
    after it: however the REST call ends, the body of [start] leaves both
    registries as they were, so typed and raw dispatch make the calls
    they would have made before. *)
Theorem X13_handlers_survive_session_start
    (token : str) (self : Client) (event : str) (args : list value)
    (kwargs : dict) (payload : dict) :
  let self' := final (start_session token self) in
  listeners self' = listeners self /\
  raw_listeners self' = raw_listeners self /\
  calls (dispatch event args kwargs self')
  = calls (dispatch event args kwargs self) /\
  calls (raw_dispatch payload self') = calls (raw_dispatch payload self).
Proof.
  intros self'.
  assert (listeners self' = listeners self
          /\ raw_listeners self' = raw_listeners self) as [Hl Hr].
  { subst self'. rewrite start_session_run.
    by destruct (fetch_self token). }
  split; [done|]. split; [done|].
  by rewrite !dispatch_calls, !raw_dispatch_calls, Hl, Hr.
Qed.

(** X14: every session start constructs the cache anew from the message
    limit: whatever cache the client carried before, from an earlier
    session say, the cache after the body of [start] is the same, and it
    holds no message. *)
Theorem X14_start_session_rebuilds_cache
    (token : str) (self : Client) (old : CacheHandler.t) :
  cache (final (start_session token (set_cache self old)))
  = cache (final (start_session token self)) /\
  exists c,
    cache (final (start_session token (set_cache self old))) = Some c /\
    CacheHandler.message_limit c = cache_message_limit self /\
    CacheHandler.messages c = [].
Proof.
  rewrite !start_session_run. simpl.
  destruct (fetch_self token); simpl; (split; [reflexivity|]);
    eexists; repeat split; reflexivity.
Qed.

(** X15: the character class of the identifier pattern accepts exactly
    the digits and the upper-case ASCII letters other than I, L, O and U;
    in particular no lower-case letter is an identifier character. *)
Theorem X15_identifier_alphabet (c : N) :
  id_char c = true <->
  ((48 <= c <= 57) \/
   (65 <= c <= 90 /\ c <> 73 /\ c <> 76 /\ c <> 79 /\ c <> 85))%N.
Proof.
  unfold id_char, Re.in_ranges, id_ranges. simpl.
  rewrite !orb_true_iff, !andb_true_iff, !N.leb_le. lia.
Qed.

End Properties.

(** ** The concrete client at work *)

Example demo_client_started : cache demo_client = Some demo_cache.
Proof. reflexivity. Qed.

Example demo_cache_keeps_newest :
  CacheHandler.messages (CacheHandler.run (CacheHandler.init 2) demo_ops)
  = [demo_message "m2"; demo_message "m3"].
Proof. reflexivity. Qed.

Example demo_search_skips_excluded_letter :
  search_id (py "O1ARZ3NDEKTSV4RRFFQ69G5FAV") = None.
Proof. reflexivity. Qed.

Example demo_unstarted_client_has_no_cache :
  result (get_user (py "alice") (@init nat None)) = Raised AttributeError.
Proof. reflexivity. Qed.

Lemma demo_ops_distinct : NoDup (map _id (CacheHandler.puts demo_ops)).
Proof. apply (bool_decide_unpack _). vm_compute. exact I. Defined.

Lemma demo_bob_is_a_name : ~ contains_id (py "bob").
Proof. apply search_id_None. reflexivity. Defined.

Lemma demo_mention_contains_id : contains_id demo_mention.
Proof. exists (py "<@"), demo_id, (py ">"). split; reflexivity. Defined.

(** ** Instances of the claims *)


Lemma C2_witness :
  listeners demo_client !! lower demo_lower (py "STALL") = Some 2%nat /\
  dispatch demo_lower demo_handlers (py "STALL") [] [] demo_client
  = await_call demo_handlers 2%nat [] [] demo_client /\
  (snd (demo_handlers 2%nat [] [] demo_client) = Pending ->
   result (dispatch demo_lower demo_handlers (py "STALL") [] [] demo_client)
   = Pending /\
   forall next : coro unit,
     calls (bind (dispatch demo_lower demo_handlers (py "STALL") [] [])
                 (fun _ => next) demo_client)
     = [CallHandler 2%nat [] []] /\
     result (bind (dispatch demo_lower demo_handlers (py "STALL") [] [])
                  (fun _ => next) demo_client)
     = Pending).
Proof.
  split; [reflexivity|].
  apply (C2_dispatch_awaits_inline demo_lower demo_handlers demo_client
           (py "STALL") [] [] 2%nat).
  reflexivity.
Defined.

Lemma C3_witness :
  listeners demo_client !! lower demo_lower (py "boom") = Some 1%nat /\
  snd (demo_handlers 1%nat [] [] demo_client) = Raised (OtherError 7) /\
  result (dispatch demo_lower demo_handlers (py "boom") [] [] demo_client)
  = Raised (OtherError 7).
Proof.
  split; [reflexivity|]. split; [reflexivity|].
  apply (proj1 (C3_handler_error_propagates demo_lower demo_handlers
                  demo_client (py "boom") [] [] [] 1%nat (OtherError 7)));
    reflexivity.
Defined.

Lemma C4_witness :
  id_shaped demo_id = true /\
  get_user demo_id demo_client = lookup_by_id demo_id demo_client /\
  ~ contains_id (py "bob") /\
  get_user (py "bob") demo_client = lookup_by_name (py "bob") demo_client.
Proof.
  split; [reflexivity|]. split.
  - apply (proj1 (C4_get_user_routes_by_search demo_client demo_id)).
    reflexivity.
  - split; [exact demo_bob_is_a_name|].
    apply (proj2 (proj2 (C4_get_user_routes_by_search demo_client (py "bob")))).
    exact demo_bob_is_a_name.
Defined.

Lemma C5_witness :
  cache demo_client = Some demo_cache /\
  ~ contains_id (py "bob") /\
  (forall u, In u (CacheHandler.users demo_cache) -> user_name u <> py "bob") /\
  get_user (py "bob") demo_client
  = Run [CacheGetUser (py "bob") CacheHandler.Name] demo_client (Returned None).
Proof.
  assert (forall u, In u (CacheHandler.users demo_cache) ->
                    user_name u <> py "bob") as Hu.
  { intros u [<-|[]]. discriminate. }
  split; [reflexivity|]. split; [exact demo_bob_is_a_name|].
  split; [exact Hu|].
  apply (C5_unknown_name_is_none demo_client demo_cache (py "bob")).
  - reflexivity.
  - exact demo_bob_is_a_name.
  - exact Hu.
Defined.

Lemma C6_witness :
  truthy None = false /\
  invoked (dispatch demo_lower demo_handlers (py "ping") [] []
             (fst (listen demo_lower (py "ping") None 3%nat
                (fst (listen demo_lower (py "ping") None 1%nat demo_client)))))
  = [3%nat].
Proof.
  split; [reflexivity|].
  apply (proj1 (proj2 (C6_last_registration_wins demo_lower demo_handlers
                         demo_client (py "ping") None 1%nat 3%nat [] [] []))).
  reflexivity.
Defined.

Lemma C7_witness :
  case_variant demo_lower (py "Message") (py "MESSAGE") /\
  truthy None = false /\
  calls (dispatch demo_lower demo_handlers (py "MESSAGE")
           [VStr (py "hi")] []
           (fst (listen demo_lower (py "Message") None 3%nat demo_client)))
  = [CallHandler 3%nat [VStr (py "hi")] []].
Proof.
  split; [reflexivity|]. split; [reflexivity|].
  apply (proj1 (C7_case_insensitive_matching demo_lower demo_handlers
                  demo_client (py "Message") (py "MESSAGE") None 3%nat
                  [VStr (py "hi")] [] []
                  (eq_refl : case_variant demo_lower (py "Message")
                                          (py "MESSAGE")))).
  reflexivity.
Defined.

Lemma C8_witness :
  listeners demo_client !! lower demo_lower (py "Typing") = None /\
  dispatch demo_lower demo_handlers (py "Typing") [] [] demo_client
  = Run [] demo_client (Returned tt).
Proof.
  split; [reflexivity|].
  apply (proj1 (C8_absent_handler_is_noop demo_lower demo_handlers
                  demo_client (py "Typing") [] [] [])).
  reflexivity.
Defined.

Lemma C9_witness :
  dict_get [(py "content", VStr (py "hi"))] (py "type") = None /\
  raw_dispatch demo_lower demo_handlers [(py "content", VStr (py "hi"))]
    demo_client
  = Run [] demo_client (Raised KeyError).
Proof.
  split; [reflexivity|].
  apply (proj1 (C9_raw_dispatch_needs_type demo_lower demo_handlers
                  demo_client [(py "content", VStr (py "hi"))])).
  reflexivity.
Defined.

Lemma C10_witness :
  contains_id demo_mention /\
  exists pre group0 post,
    demo_mention = pre ++ group0 ++ post /\
    id_shaped group0 = true /\
    (forall pre' m' post',
       demo_mention = pre' ++ m' ++ post' -> id_shaped m' = true ->
       (length pre <= length pre')%nat) /\
    get_user demo_mention demo_client = lookup_by_id group0 demo_client /\
    (forall key, ~ In (CacheGetUser key CacheHandler.Name)
                      (calls (get_user demo_mention demo_client))).
Proof.
  split; [exact demo_mention_contains_id|].
  apply (C10_get_user_searches_substring demo_client demo_mention).
  exact demo_mention_contains_id.
Defined.

(** ** Where the code departs from the claims *)


(** C2, refuted: the handler registered for "stall" never returns, and
    then neither does the dispatch call that awaits it; a dispatch of
    "ping" sequenced after it never invokes the "ping" handler. *)
Lemma C2_counterexample :
  listeners demo_client !! lower demo_lower (py "stall") = Some 2%nat /\
  listeners demo_client !! lower demo_lower (py "ping") = Some 0%nat /\
  (forall args kwargs self, snd (demo_handlers 2%nat args kwargs self) = Pending) /\
  dispatch demo_lower demo_handlers (py "stall") [] [] demo_client
  = Run [CallHandler 2%nat [] []] demo_client Pending /\
  ~ In 0%nat
      (invoked (bind (dispatch demo_lower demo_handlers (py "stall") [] [])
                     (fun _ => dispatch demo_lower demo_handlers (py "ping") [] [])
                     demo_client)).
Proof.
  split; [reflexivity|]. split; [reflexivity|]. split; [reflexivity|].
  split; [reflexivity|].
  vm_compute. intros [Heq|[]]. discriminate.
Qed.

(** C3, refuted: the handler registered for "boom" raises, and the error
    comes out of the dispatch call; it is neither caught nor reported
    there, and a dispatch of "ping" sequenced after it does not run. *)
Lemma C3_counterexample :
  listeners demo_client !! lower demo_lower (py "boom") = Some 1%nat /\
  (forall args kwargs self,
     snd (demo_handlers 1%nat args kwargs self) = Raised (OtherError 7)) /\
  dispatch demo_lower demo_handlers (py "boom") [] [] demo_client
  = Run [CallHandler 1%nat [] []] demo_client (Raised (OtherError 7)) /\
  bind (dispatch demo_lower demo_handlers (py "boom") [] [])
       (fun _ => dispatch demo_lower demo_handlers (py "ping") [] [])
       demo_client
  = Run [CallHandler 1%nat [] []] demo_client (Raised (OtherError 7)).
Proof. repeat split; reflexivity. Qed.

(** C4, refuted: a mention is not of the identifier shape, yet it is
    resolved by identifier look-up of the identifier inside it, with a
    result that the name look-up of the same input does not give. *)
Lemma C4_counterexample :
  id_shaped demo_mention = false /\
  get_user demo_mention demo_client
  = Run [CacheGetUser demo_id CacheHandler.Id] demo_client
        (Returned (Some alice)) /\
  lookup_by_name demo_mention demo_client
  = Run [CacheGetUser demo_mention CacheHandler.Name] demo_client
        (Returned None) /\
  get_user demo_mention demo_client <> lookup_by_name demo_mention demo_client.
Proof.
  split; [reflexivity|]. split; [reflexivity|]. split; [reflexivity|].
  intros Heq. apply (f_equal result) in Heq. vm_compute in Heq. discriminate.
Qed.

(** ** Instances of the further properties *)

Lemma X1_witness :
  dict_get [(py "type", VStr (py "Message"))] (py "type")
  = Some (VStr (py "Message")) /\
  raw_dispatch demo_lower demo_handlers [(py "type", VStr (py "Message"))]
    (init None)
  = Run [] (init None) (Returned tt).
Proof.
  split; [reflexivity|].
  apply (proj2 (X1_fresh_client_ignores_events (H:=nat) demo_lower
                  demo_handlers None (py "Message") [] []
                  [(py "type", VStr (py "Message"))])).
  reflexivity.
Defined.

Lemma X2_witness :
  truthy None = false /\ truthy (Some true) = true /\
  dict_get [(py "type", VStr (py "message"))] (py "type")
  = Some (VStr (py "message")) /\
  invoked (dispatch demo_lower demo_handlers (py "message") [] []
             (fst (listen demo_lower (py "message") (Some true) 6%nat
                (fst (listen demo_lower (py "message") None 5%nat
                        demo_client)))))
  = [5%nat] /\
  invoked (raw_dispatch demo_lower demo_handlers
             [(py "type", VStr (py "message"))]
             (fst (listen demo_lower (py "message") (Some true) 6%nat
                (fst (listen demo_lower (py "message") None 5%nat
                        demo_client)))))
  = [6%nat].
Proof.
  split; [reflexivity|]. split; [reflexivity|]. split; [reflexivity|].
  apply (proj2 (X2_typed_and_raw_handlers_coexist demo_lower demo_handlers
                  demo_client (py "message") None (Some true) 5%nat 6%nat
                  [] [] [(py "type", VStr (py "message"))]
                  eq_refl eq_refl eq_refl)).
Defined.

Lemma X3_witness :
  lower demo_lower (py "ping") <> lower demo_lower (py "pong") /\
  calls (dispatch demo_lower demo_handlers (py "ping") [] []
           (fst (listen demo_lower (py "pong") None 9%nat demo_client)))
  = calls (dispatch demo_lower demo_handlers (py "ping") [] [] demo_client).
Proof.
  assert (lower demo_lower (py "ping") <> lower demo_lower (py "pong")) as Hne
    by (vm_compute; discriminate).
  split; [exact Hne|].
  apply (X3_listen_keeps_other_handlers demo_lower demo_handlers demo_client
           (py "pong") (py "ping") None 9%nat [] [] [] Hne).
Defined.

Lemma X5_witness :
  forallb is_ascii (py "Message") = true /\
  lower demo_lower (lower demo_lower (py "Message"))
  = lower demo_lower (py "Message") /\
  listen demo_lower (lower demo_lower (py "Message")) None 4%nat demo_client
  = listen demo_lower (py "Message") None 4%nat demo_client.
Proof.
  split; [reflexivity|].
  apply (X5_listen_under_lowered_name demo_lower demo_client (py "Message")
           None 4%nat).
  reflexivity.
Defined.

Lemma X6_witness :
  cache (@init nat None) = None /\
  get_user demo_id (@init nat None)
  = Run [] (init None) (Raised AttributeError).
Proof.
  split; [reflexivity|].
  apply (X6_get_user_needs_started_client (init None) demo_id).
  reflexivity.
Defined.

Lemma X7_witness :
  (length (py "alice") < 26)%nat /\
  get_user (py "alice") demo_client = lookup_by_name (py "alice") demo_client.
Proof.
  assert (length (py "alice") < 26)%nat as Hlen by (vm_compute; lia).
  split; [exact Hlen|].
  apply (X7_get_user_short_input_is_a_name demo_client (py "alice") Hlen).
Defined.

Lemma X8_witness :
  id_shaped demo_id = true /\
  Forall (fun c => id_char c = false) (py "<@") /\
  get_user (py "<@" ++ demo_id ++ py ">") demo_client
  = get_user demo_id demo_client.
Proof.
  assert (Forall (fun c => id_char c = false) (py "<@")) as Hpre
    by (repeat constructor).
  split; [reflexivity|]. split; [exact Hpre|].
  apply (X8_get_user_ignores_wrapping demo_client (py "<@") demo_id (py ">")
           eq_refl Hpre).
Defined.

Lemma X9_witness :
  search_id demo_mention = Some demo_id /\
  id_shaped demo_id = true /\
  search_id demo_id = Some demo_id /\
  get_user demo_id demo_client = get_user demo_mention demo_client.
Proof.
  split; [reflexivity|].
  apply (X9_get_user_resolves_matched_text demo_client demo_mention demo_id).
  reflexivity.
Defined.

Lemma X11_witness :
  demo_failing_fetch (py "token") = Raised TransportError /\
  start demo_failing_fetch demo_connect (py "token") demo_client
  = Run [FetchSelf]
        (set_cache demo_client
           (CacheHandler.init (cache_message_limit demo_client)))
        (Raised TransportError).
Proof.
  split; [reflexivity|].
  apply (proj1 (X11_start_stops_when_fetch_fails demo_failing_fetch
                  demo_connect (py "token") demo_client)).
  reflexivity.
Defined.

Lemma X12_witness :
  demo_fetch (py "token") = Returned alice /\
  exists self' : @Client nat,
    listeners self' = listeners demo_client /\
    raw_listeners self' = raw_listeners demo_client /\
    cache_message_limit self' = cache_message_limit demo_client /\
    (exists c, cache self' = Some c /\
       CacheHandler.message_limit c = cache_message_limit demo_client /\
       CacheHandler.messages c = []) /\
    is_Some (user self') /\
    calls (start demo_fetch demo_connect (py "token") demo_client)
    = FetchSelf :: calls (demo_connect self') /\
    final (start demo_fetch demo_connect (py "token") demo_client)
    = final (demo_connect self') /\
    result (start demo_fetch demo_connect (py "token") demo_client)
    = result (demo_connect self').
Proof.
  split; [reflexivity|].
  apply (X12_start_hands_over_to_gateway demo_fetch demo_connect (py "token")
           demo_client alice).
  reflexivity.
Defined.
